(** * node-countdown-gif: the countdown generator

  A shallow embedding of [src/countdown-generator/index.js] and the
  properties of its time computation, field decomposition, clamping and
  frame loop.

  Modelling choices.
  - JavaScript numbers that the program only ever uses as integers
    (milliseconds, pixel sizes, frame counts, loop counters) are [Z];
    quotients such as [asDays()] or [width / 2] are exact rationals [Q].
    The IEEE rounding of doubles is not modelled.
  - The libraries the file requires (moment, moment-timezone, canvas,
    gifencoder) are modelled by what the program observes of them: a
    duration is its [_milliseconds], a zoned moment is the call that
    built it together with a clock that gives its instant, the canvas
    context is its properties and the list of paint operations, the
    encoder is the list of calls it received.
  - Of the output handling of [encode] (lines 142-159) only the path of
    the output file is modelled; the directory creation, the stream
    piping and the completion callback are left out, as are the three
    diagnostic lines of [time] (lines 103-105), the unused text metrics
    (lines 203-206) and the unused helpers [calcTime] and [setTrack]. *)

From Stdlib Require Import ZArith QArith Qround String Ascii List Lia.
From Stdlib Require Import DecimalString DecimalPos DecimalZ.
Import ListNotations.

Local Open Scope string_scope.
Local Open Scope Z_scope.

(** ** JavaScript primitives used by the program *)

Module JS.

(** [Number.prototype.toString] on an integer: decimal digits, with a
    leading minus sign for negative values. *)
Definition toString (v : Z) : string :=
  NilEmpty.string_of_int (Z.to_int v).

(** [a || b] on strings: the empty string is the only falsy string. *)
Definition or_else (a b : string) : string :=
  if (a =? "")%string then b else a.

(** [y || k] on an optional number: [undefined] and [0] are falsy. *)
Definition num_or_else (y : option Z) (k : Z) : Z :=
  match y with
  | Some v => if v =? 0 then k else v
  | None => k
  end.

(** A default parameter value applies when the argument is omitted. *)
Definition default {A : Type} (d : A) (arg : option A) : A :=
  match arg with
  | Some v => v
  | None => d
  end.

(** [Array.prototype.join]. *)
Definition join (sep : string) (parts : list string) : string :=
  String.concat sep parts.

End JS.

Module Math.

Definition floor (q : Q) : Z := Qfloor q.
Definition max (a b : Z) : Z := Z.max a b.
Definition min (a b : Z) : Z := Z.min a b.

End Math.

(** ** moment and moment-timezone *)

Module Moment.

(** A duration built from a number of milliseconds keeps it in
    [_milliseconds]; its day and month parts stay zero. *)
Record Duration : Type := duration { milliseconds : Z }.

Definition asDays (d : Duration) : Q := inject_Z (milliseconds d) / 86400000.
Definition asHours (d : Duration) : Q := inject_Z (milliseconds d) / 3600000.
Definition asMinutes (d : Duration) : Q := inject_Z (milliseconds d) / 60000.
Definition asSeconds (d : Duration) : Q := inject_Z (milliseconds d) / 1000.

(** [d.subtract(n, 'seconds')]: the duration object is updated in place;
    the updated object is returned. *)
Definition subtract (d : Duration) (n : Z) : Duration :=
  duration (milliseconds d - n * 1000).

(** A zoned moment, as the call that produced it:
    [tz(timeString, zone)] or [tz(zone)] (the current instant). *)
Inductive Zoned : Type :=
| tz (timeString zone : string)
| tz_now (zone : string).

End Moment.

Import Moment.

(** ** The generator *)

Module Countdown.

(** *** The object state set up by [init] *)

Record This : Type := mkThis {
  width : Z;
  height : Z;
  frames : Z;
  bg : string;
  textColor : string;
  name : string;
  timezone : string;
  datepassedtext : string;
  halfWidth : Q;
  halfHeight : Q
}.

(** The result of [time]: the date-passed string or a duration object
    ([typeof timeResult === 'object'] tells them apart). *)
Inductive TimeResult : Type :=
| Passed (message : string)
| Remaining (d : Duration).

(** *** Canvas context and encoder *)

Inductive PathOp : Type :=
| MoveTo (x y : Z)
| LineTo (x y : Z).

Inductive Paint : Type :=
| FillRect (style : string) (x y w h : Z)
| FillText (style font message : string) (x y : Q)
| Stroke (style : string) (lineWidth : Z) (path : list PathOp).

Record Ctx : Type := mkCtx {
  font : string;
  textAlign : string;
  textBaseline : string;
  fillStyle : string;
  strokeStyle : string;
  lineWidth : Z;
  path : list PathOp;
  painted : list Paint
}.

Inductive EncOp : Type :=
| Start
| SetRepeat (n : Z)
| SetDelay (ms : Z)
| SetQuality (q : Z)
| AddFrame (pixels : list Paint)
| Finish.

Record Session : Type := mkSession {
  ctx : Ctx;
  encoder : list EncOp;
  console : list string
}.

(** A statement of the program: it updates the session. *)
Definition Cmd : Type := Session -> Session.

Definition then_ (c1 c2 : Cmd) : Cmd := fun s => c2 (c1 s).

Declare Scope cmd_scope.
Delimit Scope cmd_scope with cmd.
Bind Scope cmd_scope with Cmd.
Notation "c1 ;; c2" := (then_ c1 c2)
  (at level 61, left associativity) : cmd_scope.

Definition on_ctx (f : Ctx -> Ctx) : Cmd :=
  fun s => mkSession (f (ctx s)) (encoder s) (console s).

Definition set_font (v : string) : Cmd :=
  on_ctx (fun c => mkCtx v (textAlign c) (textBaseline c) (fillStyle c)
                         (strokeStyle c) (lineWidth c) (path c) (painted c)).
Definition set_textAlign (v : string) : Cmd :=
  on_ctx (fun c => mkCtx (font c) v (textBaseline c) (fillStyle c)
                         (strokeStyle c) (lineWidth c) (path c) (painted c)).
Definition set_textBaseline (v : string) : Cmd :=
  on_ctx (fun c => mkCtx (font c) (textAlign c) v (fillStyle c)
                         (strokeStyle c) (lineWidth c) (path c) (painted c)).
Definition set_fillStyle (v : string) : Cmd :=
  on_ctx (fun c => mkCtx (font c) (textAlign c) (textBaseline c) v
                         (strokeStyle c) (lineWidth c) (path c) (painted c)).
Definition set_strokeStyle (v : string) : Cmd :=
  on_ctx (fun c => mkCtx (font c) (textAlign c) (textBaseline c) (fillStyle c)
                         v (lineWidth c) (path c) (painted c)).
Definition set_lineWidth (v : Z) : Cmd :=
  on_ctx (fun c => mkCtx (font c) (textAlign c) (textBaseline c) (fillStyle c)
                         (strokeStyle c) v (path c) (painted c)).
Definition set_path (p : list PathOp) (c : Ctx) : Ctx :=
  mkCtx (font c) (textAlign c) (textBaseline c) (fillStyle c)
        (strokeStyle c) (lineWidth c) p (painted c).
Definition paint (p : Paint) (c : Ctx) : Ctx :=
  mkCtx (font c) (textAlign c) (textBaseline c) (fillStyle c)
        (strokeStyle c) (lineWidth c) (path c) (painted c ++ [p])%list.

Definition beginPath : Cmd := on_ctx (set_path []).
Definition moveTo (x y : Z) : Cmd :=
  on_ctx (fun c => set_path (path c ++ [MoveTo x y])%list c).
Definition lineTo (x y : Z) : Cmd :=
  on_ctx (fun c => set_path (path c ++ [LineTo x y])%list c).
Definition stroke : Cmd :=
  on_ctx (fun c => paint (Stroke (strokeStyle c) (lineWidth c) (path c)) c).
Definition fillRect (x y w h : Z) : Cmd :=
  on_ctx (fun c => paint (FillRect (fillStyle c) x y w h) c).
Definition fillText (message : string) (x y : Q) : Cmd :=
  on_ctx (fun c => paint (FillText (fillStyle c) (font c) message x y) c).

Definition enc (op : EncOp) : Cmd :=
  fun s => mkSession (ctx s) (encoder s ++ [op])%list (console s).
(** [enc.addFrame(ctx)] reads the pixels painted so far. *)
Definition addFrame : Cmd :=
  fun s => enc (AddFrame (painted (ctx s))) s.
Definition console_log (line : string) : Cmd :=
  fun s => mkSession (ctx s) (encoder s) (console s ++ [line])%list.

(** A fresh 2d context and a fresh encoder, as [init] creates them
    (lines 39-41). *)
Definition getContext2d : Ctx :=
  mkCtx "10px sans-serif" "start" "alphabetic" "#000000" "#000000" 1 [] [].
Definition new_session : Session := mkSession getContext2d [] [].

(** *** [clamp] (lines 75-77) *)

Definition clamp (number min max : Z) : Z :=
  Math.max min (Math.min number max).

(** *** [time] (lines 83-114) *)

(** Lines 86-98: the target and the current moment. *)
Definition time_moments (this : This) (timeString : string) : Zoned * Zoned :=
  let target := tz timeString "Europe/London" in
  let current := tz_now "Europe/London" in
  if (timezone this =? "nl")%string then
    (tz timeString "Europe/Amsterdam", tz_now "Europe/Amsterdam")
  else if (timezone this =? "ru")%string then
    (tz timeString "Europe/Moscow", tz_now "Europe/Moscow")
  else if (timezone this =? "uk")%string then
    (tz timeString "Europe/London", tz_now "Europe/London")
  else (target, current).

Section Clock.

(** The instant of a zoned moment, in milliseconds since the epoch. *)
Variable valueOf : Zoned -> Z.

(** [target.diff(current)]. *)
Definition diff (target current : Zoned) : Z :=
  valueOf target - valueOf current.

Definition time (this : This) (timeString : string) : TimeResult :=
  let '(target, current) := time_moments this timeString in
  let difference := diff target current in
  if difference <=? 0 then
    Passed (JS.or_else (datepassedtext this) "Date has passed!")
  else
    Remaining (duration difference).

End Clock.

(** *** [drawMessage] and [drawLine] (lines 115-126) *)

Definition drawMessage (message : string) (x y : Q) : Cmd :=
  fillText message x y.

Definition drawLine (x : Z) (y : option Z) : Cmd :=
  (beginPath ;;
   moveTo x (JS.num_or_else y 15) ;;
   lineTo x (JS.num_or_else y 130) ;;
   set_lineWidth 2 ;;
   set_strokeStyle "#ffe600" ;;
   stroke)%cmd.

(** *** [encode] (lines 139-265) *)

Record Fields (A : Type) : Type := mkFields {
  days : A;
  hours : A;
  minutes : A;
  seconds : A
}.
Arguments mkFields {A} _ _ _ _.
Arguments days {A} _.
Arguments hours {A} _.
Arguments minutes {A} _.
Arguments seconds {A} _.

(** Lines 181-184. *)
Definition extract (timeResult : Duration) : Fields Z :=
  let days := Math.floor (asDays timeResult) in
  let hours := Math.floor (asHours timeResult - inject_Z (days * 24)) in
  let minutes :=
    Math.floor (asMinutes timeResult) - (days * 24 * 60) - (hours * 60) in
  let seconds :=
    Math.floor (asSeconds timeResult) - (days * 24 * 60 * 60)
    - (hours * 60 * 60) - (minutes * 60) in
  mkFields days hours minutes seconds.

(** Lines 188-191, one field:
    [(v.toString().length == 1) ? '0' + v : v]. *)
Definition twoChars (v : Z) : string :=
  if (String.length (JS.toString v) =? 1)%nat
  then "0" ++ JS.toString v
  else JS.toString v.

Definition pad (f : Fields Z) : Fields string :=
  mkFields (twoChars (days f)) (twoChars (hours f))
           (twoChars (minutes f)) (twoChars (seconds f)).

(** A number literal or quotient used as a coordinate. *)
Definition num (q : Q) : Q := Qred q.

(** Lines 181-245: the loop body up to [enc.addFrame]. *)
Definition countdown_frame (this : This) (timeResult : Duration) : Cmd :=
  let f := pad (extract timeResult) in
  (set_fillStyle (bg this) ;;
   fillRect 0 0 (width this) (height this) ;;
   set_fillStyle (textColor this) ;;
   set_font "800 50pt helvetica" ;;
   drawMessage (days f) (num 125) (num 60) ;;
   set_font "800 10pt helvetica" ;;
   drawMessage "DAYS" (num 125) (num (100 + 10 / 2)) ;;
   drawLine 190 None ;;
   set_font "300 50pt helvetica" ;;
   drawMessage (hours f) (num 250) (num 60) ;;
   set_font "300 10pt helvetica" ;;
   drawMessage "HOURS" (num 250) (num (100 + 10 / 2)) ;;
   drawLine 315 None ;;
   set_font "300 50pt helvetica" ;;
   drawMessage (minutes f) (num 375) (num 60) ;;
   set_font "300 10pt helvetica" ;;
   drawMessage "MINUTES" (num 375) (num (100 + 10 / 2)) ;;
   drawLine 440 None ;;
   set_font "300 50pt helvetica" ;;
   drawMessage (seconds f) (num 500) (num 60) ;;
   set_font "300 10pt helvetica" ;;
   drawMessage "SECONDS" (num 505) (num (100 + 10 / 2)) ;;
   console_log ("string: " ++
                JS.join "" [days f; "d "; hours f; "h ";
                            minutes f; "m "; seconds f; "s"]) ;;
   addFrame)%cmd.

(** Lines 179-249: [for (let i = 0; i < this.frames; i++)].  The
    duration object is updated at the end of each iteration; the loop
    returns it with the session. *)
Fixpoint for_frames (fuel : nat) (this : This) (i : Z)
         (timeResult : Duration) (s : Session) : option (Duration * Session) :=
  match fuel with
  | O => None
  | S fuel' =>
      if i <? frames this then
        let s' := countdown_frame this timeResult s in
        let timeResult' := subtract timeResult 1 in
        for_frames fuel' this (i + 1) timeResult' s'
      else Some (timeResult, s)
  end.

(** Lines 250-260: the date has passed. *)
Definition passed_frame (this : This) (message : string) : Cmd :=
  (set_fillStyle (bg this) ;;
   fillRect 0 0 (width this) (height this) ;;
   set_fillStyle (textColor this) ;;
   drawMessage message (halfWidth this) (halfHeight this) ;;
   addFrame)%cmd.

Definition encode (this : This) (timeResult : TimeResult) (s : Session)
  : option (TimeResult * Session) :=
  let fontSize := JS.toString (Math.floor (inject_Z (width this) / 12)) ++ "px" in
  let fontFamily := "Courier New" in
  let s :=
    (set_font (JS.join " " [fontSize; fontFamily]) ;;
     set_textAlign "center" ;;
     set_textBaseline "middle" ;;
     enc Start ;;
     enc (SetRepeat 0) ;;
     enc (SetDelay 1000) ;;
     enc (SetQuality 10))%cmd s in
  match timeResult with
  | Remaining d =>
      match for_frames (S (Z.to_nat (frames this))) this 0 d s with
      | Some (d', s') => Some (Remaining d', enc Finish s')
      | None => None
      end
  | Passed message =>
      Some (Passed message, (passed_frame this message ;; enc Finish)%cmd s)
  end.

(** *** [init] (lines 23-48) *)

(** Lines 23-37: default parameter values and the fields of [this]. *)
Definition new_this (width height : option Z) (color bg name : option string)
           (frames : option Z) (timezone datepassedtext : option string) : This :=
  let width := JS.default 640 width in
  let height := JS.default 80 height in
  let color := JS.default "ffe600" color in
  let bg := JS.default "000000" bg in
  let name := JS.default "default" name in
  let frames := JS.default 30 frames in
  let timezone := JS.default "uk" timezone in
  let datepassedtext := JS.default "Date has passed!" datepassedtext in
  let w := clamp width 150 1000 in
  let h := clamp height 150 500 in
  mkThis w h (clamp frames 1 90)
         ("#" ++ bg) ("#" ++ color) name timezone datepassedtext
         (num (inject_Z w / 2)) (num (inject_Z h / 2)).

Definition init (valueOf : Zoned -> Z) (time_ : string)
           (width height : option Z) (color bg name : option string)
           (frames : option Z) (timezone datepassedtext : option string)
  : option (This * TimeResult * Session) :=
  let this := new_this width height color bg name frames timezone datepassedtext in
  let timeResult := time valueOf this time_ in
  match encode this timeResult new_session with
  | Some (timeResult', s) => Some (this, timeResult', s)
  | None => None
  end.

End Countdown.

Import Countdown.

(** ** Closed forms used to state what a session paints *)

(** The paint operations of one countdown frame showing the fields [f]. *)
Definition countdown_paint (this : This) (f : Fields string) : list Paint :=
  [ FillRect (bg this) 0 0 (width this) (height this);
    FillText (textColor this) "800 50pt helvetica" (days f) 125 60;
    FillText (textColor this) "800 10pt helvetica" "DAYS" 125 105;
    Stroke "#ffe600" 2 [MoveTo 190 15; LineTo 190 130];
    FillText (textColor this) "300 50pt helvetica" (hours f) 250 60;
    FillText (textColor this) "300 10pt helvetica" "HOURS" 250 105;
    Stroke "#ffe600" 2 [MoveTo 315 15; LineTo 315 130];
    FillText (textColor this) "300 50pt helvetica" (minutes f) 375 60;
    FillText (textColor this) "300 10pt helvetica" "MINUTES" 375 105;
    Stroke "#ffe600" 2 [MoveTo 440 15; LineTo 440 130];
    FillText (textColor this) "300 50pt helvetica" (seconds f) 500 60;
    FillText (textColor this) "300 10pt helvetica" "SECONDS" 505 105 ].

(** The console line of one countdown frame. *)
Definition countdown_line (f : Fields string) : string :=
  "string: " ++ days f ++ "d " ++ hours f ++ "h "
             ++ minutes f ++ "m " ++ seconds f ++ "s".

(** The fields of a duration of [D] milliseconds, as drawn. *)
Definition fields_of (D : Z) : Fields string := pad (extract (duration D)).

(** What the canvas holds once frames [0 .. k-1] of a countdown from [D]
    milliseconds have been painted over [before]. *)
Definition pixels_after (this : This) (before : list Paint) (D : Z) (k : nat)
  : list Paint :=
  (before ++
   concat (map (fun j => countdown_paint this (fields_of (D - 1000 * Z.of_nat j)))
               (seq 0 k)))%list.

(** The paint operations of the single date-passed frame. *)
Definition passed_paint (this : This) (message : string) : list Paint :=
  [ FillRect (bg this) 0 0 (width this) (height this);
    FillText (textColor this)
             (JS.toString (width this / 12) ++ "px Courier New") message
             (halfWidth this) (halfHeight this) ].

(** The encoder settings made right after [start] (lines 172-175). *)
Definition settings : list EncOp :=
  [Start; SetRepeat 0; SetDelay 1000; SetQuality 10].

Definition is_stroke (p : Paint) : bool :=
  match p with
  | Stroke _ _ _ => true
  | _ => false
  end.

Definition strokes (ps : list Paint) : list Paint := filter is_stroke ps.

Definition is_addFrame (op : EncOp) : bool :=
  match op with
  | AddFrame _ => true
  | _ => false
  end.

(** The frames an encoder received, in order. *)
Definition added_frames (ops : list EncOp) : list EncOp := filter is_addFrame ops.

(** [n] successive calls of [subtract(1, 'seconds')]. *)
Definition decrement (d : Duration) (n : nat) : Duration :=
  Nat.iter n (fun d' => subtract d' 1) d.

(** ** Further definitions *)

(** Lines 142 and 149 of [encode]: the path of the output file, [cwd]
    being the value of [process.cwd()]. *)
Definition filePath (cwd : string) (this : This) : string :=
  let tmpDir := cwd ++ "/tmp/" in
  (tmpDir ++ name this) ++ ".gif".

(** Reading a drawn field back as a decimal number. *)
Definition read_back (s : string) : option Z :=
  option_map Z.of_int (NilEmpty.int_of_string s).


(** ** Arithmetic of [Math.floor] on quotients *)

Lemma floor_unique (q : Q) (n : Z) :
  (inject_Z n <= q)%Q -> (q < inject_Z (n + 1))%Q -> Math.floor q = n.
Proof.
  intros Hlo Hhi. unfold Math.floor.
  assert (n <= Qfloor q).
  { rewrite <- (Qfloor_Z n). now apply Qfloor_resp_le. }
  assert (Qfloor q < n + 1).
  { rewrite Zlt_Qlt. eapply Qle_lt_trans; [apply Qfloor_le | exact Hhi]. }
  lia.
Qed.

Lemma floor_minus_Z (q : Q) (k : Z) :
  Math.floor (q - inject_Z k) = Math.floor q - k.
Proof.
  apply floor_unique.
  - unfold Math.floor, Zminus. rewrite inject_Z_plus, inject_Z_opp.
    unfold Qminus. apply Qplus_le_compat; [apply Qfloor_le | apply Qle_refl].
  - unfold Math.floor.
    replace (Qfloor q - k + 1) with ((Qfloor q + 1) + - k) by lia.
    rewrite inject_Z_plus, inject_Z_opp. unfold Qminus.
    apply Qplus_lt_le_compat; [apply Qlt_floor | apply Qle_refl].
Qed.

Lemma floor_quot (a b : Z) : Math.floor (inject_Z a / inject_Z b) = a / b.
Proof. unfold Math.floor. symmetry. apply Zdiv_Qdiv. Qed.

(** The four fields, in integer arithmetic. *)
Lemma extract_div (D : Z) :
  extract (duration D) =
  mkFields (D / 86400000)
           (D / 3600000 - D / 86400000 * 24)
           (D / 60000 - D / 86400000 * 24 * 60
            - (D / 3600000 - D / 86400000 * 24) * 60)
           (D / 1000 - D / 86400000 * 24 * 60 * 60
            - (D / 3600000 - D / 86400000 * 24) * 60 * 60
            - (D / 60000 - D / 86400000 * 24 * 60
               - (D / 3600000 - D / 86400000 * 24) * 60) * 60).
Proof.
  unfold extract, asDays, asHours, asMinutes, asSeconds. cbn [milliseconds].
  rewrite floor_minus_Z.
  change 86400000%Q with (inject_Z 86400000).
  change 3600000%Q with (inject_Z 3600000).
  change 60000%Q with (inject_Z 60000).
  change 1000%Q with (inject_Z 1000).
  rewrite !floor_quot. reflexivity.
Qed.

Lemma div_units (D : Z) :
  D / 60000 = D / 1000 / 60 /\
  D / 3600000 = D / 1000 / 3600 /\
  D / 86400000 = D / 1000 / 86400.
Proof.
  repeat split; rewrite Z.div_div by lia; reflexivity.
Qed.

(** C1. For every duration of [D >= 0] milliseconds the fields computed
    per frame are [days = floor(D / msPerDay)], hours, minutes and seconds
    the floors of the total hours, minutes and seconds minus the
    contributions of the higher units; they add up to the whole seconds,
    [days*86400 + hours*3600 + minutes*60 + seconds = floor(D / 1000)],
    with hours in [0,23] and minutes and seconds in [0,59]. *)
Theorem extract_decomposes (D : Z) :
  0 <= D ->
  let f := extract (duration D) in
  days f = D / 86400000 /\
  hours f = D / 3600000 - days f * 24 /\
  minutes f = D / 60000 - days f * 1440 - hours f * 60 /\
  seconds f = D / 1000 - days f * 86400 - hours f * 3600 - minutes f * 60 /\
  days f * 86400 + hours f * 3600 + minutes f * 60 + seconds f = D / 1000 /\
  0 <= days f /\
  0 <= hours f <= 23 /\ 0 <= minutes f <= 59 /\ 0 <= seconds f <= 59.
Proof.
  intros HD f. subst f. rewrite extract_div. cbn [days hours minutes seconds].
  destruct (div_units D) as (Hm & Hh & Hd). rewrite Hm, Hh, Hd.
  assert (0 <= D / 1000) by (apply Z.div_pos; lia).
  generalize dependent (D / 1000). intros s _ _ _ Hs.
  repeat split; try lia.
  all: try (apply Z.div_pos; lia).
  all: Z.div_mod_to_equations; lia.
Qed.

Lemma extract_decomposes_witness :
  0 <= 90061500 /\
  let f := extract (duration 90061500) in
  days f = 90061500 / 86400000 /\
  hours f = 90061500 / 3600000 - days f * 24 /\
  minutes f = 90061500 / 60000 - days f * 1440 - hours f * 60 /\
  seconds f = 90061500 / 1000 - days f * 86400 - hours f * 3600 - minutes f * 60 /\
  days f * 86400 + hours f * 3600 + minutes f * 60 + seconds f = 90061500 / 1000 /\
  0 <= days f /\
  0 <= hours f <= 23 /\ 0 <= minutes f <= 59 /\ 0 <= seconds f <= 59.
Proof.
  split; [lia | apply (extract_decomposes 90061500); lia].
Defined.

(** ** Decimal rendering and padding *)

Lemma string_of_uint_length (u : Decimal.uint) :
  String.length (NilEmpty.string_of_uint u) = Decimal.nb_digits u.
Proof. induction u; cbn; congruence. Qed.

Lemma toString_nonempty (v : Z) : (1 <= String.length (JS.toString v))%nat.
Proof.
  unfold JS.toString. destruct v as [|p|p]; cbn.
  - lia.
  - rewrite string_of_uint_length.
    pose proof (Unsigned.to_uint_nonnil p).
    destruct (Pos.to_uint p); cbn; (congruence || lia).
  - lia.
Qed.

Lemma toString_one_digit (v : Z) :
  0 <= v < 10 -> String.length (JS.toString v) = 1%nat.
Proof.
  intros Hv.
  assert (v = 0 \/ v = 1 \/ v = 2 \/ v = 3 \/ v = 4 \/
          v = 5 \/ v = 6 \/ v = 7 \/ v = 8 \/ v = 9) as Hcases by lia.
  repeat (destruct Hcases as [-> | Hcases]; [reflexivity|]).
  subst v. reflexivity.
Qed.

Lemma toString_more_digits (v : Z) :
  10 <= v -> (2 <= String.length (JS.toString v))%nat.
Proof.
  intros Hv. destruct v as [|p|p]; try lia.
  unfold JS.toString. cbn. rewrite string_of_uint_length.
  pose proof (Unsigned.of_to p) as Hp.
  destruct (Pos.to_uint p) as [|u|u|u|u|u|u|u|u|u|u];
    try (destruct u; cbn; try lia; cbn in Hp;
         first [discriminate Hp | injection Hp as Hp; lia]).
  cbn in Hp. discriminate.
Qed.

(** C2. Every field value [v >= 0] is drawn as a string of at least two
    characters: a one-digit value gets a leading "0" (5 is drawn "05"), a
    value of two or more digits is drawn unchanged (125 is drawn "125"). *)
Theorem twoChars_min_width (v : Z) :
  0 <= v ->
  (2 <= String.length (twoChars v))%nat /\
  (v < 10 ->
   twoChars v = "0" ++ JS.toString v /\ String.length (twoChars v) = 2%nat) /\
  (10 <= v -> twoChars v = JS.toString v) /\
  twoChars 5 = "05" /\ twoChars 125 = "125".
Proof.
  intros Hv. unfold twoChars.
  pose proof (toString_nonempty v) as Hne.
  repeat split.
  - destruct (Nat.eqb_spec (String.length (JS.toString v)) 1) as [E|E].
    + cbn. lia.
    + lia.
  - rewrite (toString_one_digit v) by lia. reflexivity.
  - rewrite (toString_one_digit v) by lia. cbn.
    now rewrite (toString_one_digit v) by lia.
  - intros Hbig. pose proof (toString_more_digits v Hbig).
    destruct (Nat.eqb_spec (String.length (JS.toString v)) 1); [lia | reflexivity].
Qed.

Lemma twoChars_min_width_witness :
  0 <= 7 /\
  (2 <= String.length (twoChars 7))%nat /\
  (7 < 10 ->
   twoChars 7 = "0" ++ JS.toString 7 /\ String.length (twoChars 7) = 2%nat) /\
  (10 <= 7 -> twoChars 7 = JS.toString 7) /\
  twoChars 5 = "05" /\ twoChars 125 = "125".
Proof.
  split; [lia | apply (twoChars_min_width 7); lia].
Defined.

(** ** Decrementing a duration *)

Lemma decrement_milliseconds (d : Duration) (n : nat) :
  decrement d n = duration (milliseconds d - Z.of_nat n * 1000).
Proof.
  unfold decrement. induction n as [|n IH].
  - cbn. destruct d as [ms]. cbn. f_equal. lia.
  - rewrite Nat.iter_succ, IH. unfold subtract. cbn [milliseconds].
    f_equal. lia.
Qed.

(** C8. For every duration of [D >= 0] milliseconds and every [n] with
    [D - n*1000 >= 0], the fields obtained after [n] successive one-second
    decrements (numbers and drawn strings alike) are those of a duration
    of [D - n*1000] milliseconds. *)
Theorem decrement_consistent (D : Z) (n : nat) :
  0 <= D ->
  0 <= D - Z.of_nat n * 1000 ->
  decrement (duration D) n = duration (D - Z.of_nat n * 1000) /\
  extract (decrement (duration D) n) = extract (duration (D - Z.of_nat n * 1000)) /\
  pad (extract (decrement (duration D) n)) = fields_of (D - Z.of_nat n * 1000).
Proof.
  intros _ _. unfold fields_of.
  rewrite decrement_milliseconds. cbn [milliseconds]. auto.
Qed.

Lemma decrement_consistent_witness :
  0 <= 90061500 /\
  0 <= 90061500 - Z.of_nat 61 * 1000 /\
  decrement (duration 90061500) 61 = duration (90061500 - Z.of_nat 61 * 1000) /\
  extract (decrement (duration 90061500) 61)
  = extract (duration (90061500 - Z.of_nat 61 * 1000)) /\
  pad (extract (decrement (duration 90061500) 61))
  = fields_of (90061500 - Z.of_nat 61 * 1000).
Proof.
  split; [lia | split; [lia | apply (decrement_consistent 90061500 61); lia]].
Defined.

(** ** Construction: defaults and clamping *)

Lemma clamp_bounds (number lo hi : Z) :
  lo <= hi -> lo <= clamp number lo hi <= hi.
Proof. unfold clamp, Math.max, Math.min. lia. Qed.

Lemma clamp_inside (number lo hi : Z) :
  lo <= number <= hi -> clamp number lo hi = number.
Proof. unfold clamp, Math.max, Math.min. lia. Qed.

(** C6. At construction the width is clamped to [150,1000], the height to
    [150,500] and the frame count to [1,90]: width 50 gives 150, width
    5000 gives 1000, frames 0 gives 1, frames 200 gives 90; an omitted
    height (default 80) gives the effective height 150. *)
Theorem init_clamps (w h : option Z) (c b n : option string) (fr : option Z)
        (zone msg : option string) :
  let this := new_this w h c b n fr zone msg in
  (150 <= width this <= 1000 /\
   150 <= height this <= 500 /\
   1 <= frames this <= 90) /\
  (width this = clamp (JS.default 640 w) 150 1000 /\
   height this = clamp (JS.default 80 h) 150 500 /\
   frames this = clamp (JS.default 30 fr) 1 90) /\
  width (new_this (Some 50) h c b n fr zone msg) = 150 /\
  width (new_this (Some 5000) h c b n fr zone msg) = 1000 /\
  frames (new_this w h c b n (Some 0) zone msg) = 1 /\
  frames (new_this w h c b n (Some 200) zone msg) = 90 /\
  height (new_this w None c b n fr zone msg) = 150.
Proof.
  cbn [new_this width height frames].
  repeat split; try reflexivity; apply clamp_bounds; lia.
Qed.

(** ** The time computation *)

(** C7. For every timezone identifier the target and the current moment
    are built in one and the same named zone: "nl" gives Europe/Amsterdam,
    "ru" Europe/Moscow, "uk" Europe/London, and every other identifier
    Europe/London as well. *)
Theorem time_same_zone (this : This) (timeString : string) :
  exists zone : string,
    time_moments this timeString = (tz timeString zone, tz_now zone) /\
    (timezone this = "nl" -> zone = "Europe/Amsterdam") /\
    (timezone this = "ru" -> zone = "Europe/Moscow") /\
    (timezone this = "uk" -> zone = "Europe/London") /\
    (timezone this <> "nl" -> timezone this <> "ru" -> timezone this <> "uk" ->
     zone = "Europe/London").
Proof.
  unfold time_moments.
  destruct (String.eqb_spec (timezone this) "nl") as [Enl|Nnl].
  - exists "Europe/Amsterdam". rewrite Enl.
    repeat split; intros; (reflexivity || discriminate || contradiction).
  - destruct (String.eqb_spec (timezone this) "ru") as [Eru|Nru].
    + exists "Europe/Moscow". rewrite Eru.
      repeat split; intros; (reflexivity || discriminate || contradiction).
    + destruct (String.eqb_spec (timezone this) "uk") as [Euk|Nuk];
        exists "Europe/London";
        repeat split; intros; (reflexivity || contradiction).
Qed.

Lemma time_cases (valueOf : Zoned -> Z) (this : This) (timeString : string) :
  let difference :=
    diff valueOf (fst (time_moments this timeString))
                 (snd (time_moments this timeString)) in
  Countdown.time valueOf this timeString =
  if difference <=? 0
  then Passed (JS.or_else (datepassedtext this) "Date has passed!")
  else Remaining (duration difference).
Proof.
  unfold Countdown.time. destruct (time_moments this timeString). reflexivity.
Qed.

(** C5, as the code has it. The time computation returns the Passed
    variant exactly when the difference target - current is <= 0; the
    variant then carries the caller-supplied message when that message is
    not the empty string, and the default literal "Date has passed!" when
    no message was supplied or the supplied message is empty. When the
    difference is > 0 it returns Remaining with the duration. *)
Theorem time_passed_or_remaining
        (valueOf : Zoned -> Z) (timeString : string)
        (w h : option Z) (c b n : option string) (fr : option Z)
        (zone msg : option string) :
  let this := new_this w h c b n fr zone msg in
  let difference :=
    diff valueOf (fst (time_moments this timeString))
                 (snd (time_moments this timeString)) in
  let result := Countdown.time valueOf this timeString in
  ((exists m, result = Passed m) <-> difference <= 0) /\
  (difference <= 0 ->
   result = Passed match msg with
                   | Some m => if (m =? "")%string then "Date has passed!" else m
                   | None => "Date has passed!"
                   end) /\
  (0 < difference -> result = Remaining (duration difference)).
Proof.
  intros this difference result. subst result.
  rewrite time_cases. fold difference.
  destruct (Z.leb_spec difference 0) as [Hle|Hgt].
  - split; [|split].
    + split; [intros _; exact Hle | intros _; eexists; reflexivity].
    + intros _. f_equal. subst this. cbn [new_this datepassedtext].
      destruct msg as [m|]; reflexivity.
    + lia.
  - split; [|split].
    + split; [intros [m Hm]; discriminate | lia].
    + lia.
    + reflexivity.
Qed.

Lemma time_passed_or_remaining_witness :
  let valueOf := fun m : Zoned => match m with tz _ _ => 0 | tz_now _ => 5 end in
  let this := new_this None None None None None None None (Some "Gone!") in
  diff valueOf (fst (time_moments this "2000-01-01 00:00"))
               (snd (time_moments this "2000-01-01 00:00")) <= 0 /\
  Countdown.time valueOf this "2000-01-01 00:00" = Passed "Gone!".
Proof.
  split; [vm_compute; discriminate|].
  apply (time_passed_or_remaining
           (fun m : Zoned => match m with tz _ _ => 0 | tz_now _ => 5 end)
           "2000-01-01 00:00" None None None None None None None (Some "Gone!")).
  vm_compute; discriminate.
Defined.

(** C5 as stated fails: a caller who supplies the empty string as the
    passed-message gets the default literal, not the supplied message. *)
Lemma passed_message_counterexample :
  let valueOf := fun _ : Zoned => 0 in
  let supplied := "" in
  let this := new_this None None None None None None None (Some supplied) in
  diff valueOf (fst (time_moments this "2000-01-01 00:00"))
               (snd (time_moments this "2000-01-01 00:00")) <= 0 /\
  datepassedtext this = supplied /\
  Countdown.time valueOf this "2000-01-01 00:00" = Passed "Date has passed!" /\
  Countdown.time valueOf this "2000-01-01 00:00" <> Passed supplied.
Proof.
  cbv zeta. repeat split; try reflexivity; vm_compute; discriminate.
Qed.

(** ** One frame *)

Lemma drawLine_paints (x : Z) (s : Session) :
  painted (ctx (drawLine x None s))
  = (painted (ctx s) ++ [Stroke "#ffe600" 2 [MoveTo x 15; LineTo x 130]])%list /\
  encoder (drawLine x None s) = encoder s /\
  console (drawLine x None s) = console s.
Proof. repeat split. Qed.

Lemma countdown_frame_effect (this : This) (d : Duration) (s : Session) :
  let shown := countdown_paint this (pad (extract d)) in
  painted (ctx (countdown_frame this d s)) = (painted (ctx s) ++ shown)%list /\
  encoder (countdown_frame this d s)
  = (encoder s ++ [AddFrame (painted (ctx s) ++ shown)])%list /\
  console (countdown_frame this d s)
  = (console s ++ [countdown_line (pad (extract d))])%list.
Proof.
  unfold countdown_frame. generalize (pad (extract d)). intros f.
  cbv zeta. repeat split.
  - cbn. repeat rewrite <- app_assoc. reflexivity.
  - cbn. repeat rewrite <- app_assoc. reflexivity.
Qed.

(** ** The frame loop *)

Lemma pixels_after_step (this : This) (P : list Paint) (D : Z) (m : nat) :
  pixels_after this (P ++ countdown_paint this (fields_of D)) (D - 1000) m
  = pixels_after this P D (S m).
Proof.
  unfold pixels_after. rewrite <- app_assoc. f_equal.
  change (seq 0 (S m)) with (0%nat :: seq 1 m).
  rewrite <- seq_shift. cbn [map concat]. rewrite map_map.
  replace (D - 1000 * Z.of_nat 0) with D by lia. f_equal. f_equal.
  apply map_ext. intros j. do 2 f_equal. lia.
Qed.

Lemma pixels_after_one (this : This) (P : list Paint) (D : Z) :
  pixels_after this P D 1 = (P ++ countdown_paint this (fields_of D))%list.
Proof.
  unfold pixels_after. cbn [seq map concat]. rewrite app_nil_r.
  change (Z.of_nat 0) with 0. rewrite Z.mul_0_r, Z.sub_0_r. reflexivity.
Qed.

Lemma pixels_after_succ (this : This) (P : list Paint) (D : Z) (i : nat) :
  pixels_after this P D (S i)
  = (pixels_after this P D i ++
     countdown_paint this (fields_of (D - 1000 * Z.of_nat i)))%list.
Proof.
  unfold pixels_after. rewrite seq_S, map_app, concat_app.
  cbn [map concat Nat.add]. rewrite app_nil_r, app_assoc. reflexivity.
Qed.

Lemma for_frames_runs (this : This) :
  forall (k fuel : nat) (i : Z) (d : Duration) (s : Session),
    Z.to_nat (frames this - i) = k ->
    (k < fuel)%nat ->
    exists s' : Session,
      for_frames fuel this i d s = Some (decrement d k, s') /\
      painted (ctx s')
      = pixels_after this (painted (ctx s)) (milliseconds d) k /\
      encoder s'
      = (encoder s ++
         map (fun j => AddFrame (pixels_after this (painted (ctx s))
                                              (milliseconds d) (S j)))
             (seq 0 k))%list /\
      console s'
      = (console s ++
         map (fun j => countdown_line
                         (fields_of (milliseconds d - 1000 * Z.of_nat j)))
             (seq 0 k))%list.
Proof.
  induction k as [|k IH]; intros fuel i d s Hk Hfuel.
  - destruct fuel as [|fuel]; [lia|]. cbn [for_frames].
    destruct (Z.ltb_spec i (frames this)) as [Hlt|Hge]; [lia|].
    exists s. unfold pixels_after. cbn. rewrite !app_nil_r. auto.
  - destruct fuel as [|fuel]; [lia|]. cbn [for_frames].
    destruct (Z.ltb_spec i (frames this)) as [Hlt|Hge]; [|lia].
    destruct (countdown_frame_effect this d s) as (Hp & He & Hc).
    cbv zeta in Hp, He, Hc.
    destruct (IH fuel (i + 1) (subtract d 1) (countdown_frame this d s))
      as (s' & Hrun & Hp' & He' & Hc'); [lia | lia |].
    exists s'. split; [|split; [|split]].
    + rewrite Hrun. do 2 f_equal.
      rewrite !decrement_milliseconds. unfold subtract. cbn [milliseconds].
      f_equal. lia.
    + rewrite Hp', Hp. destruct d as [D]. cbn [milliseconds subtract].
      replace (D - 1 * 1000) with (D - 1000) by lia.
      apply pixels_after_step.
    + rewrite He', He, Hp. destruct d as [D]. cbn [milliseconds subtract].
      replace (D - 1 * 1000) with (D - 1000) by lia.
      rewrite <- app_assoc. f_equal.
      change (seq 0 (S k)) with (0%nat :: seq 1 k).
      rewrite <- seq_shift. cbn [map app]. rewrite map_map. f_equal.
      * f_equal. symmetry. apply pixels_after_one.
      * apply map_ext. intros j. f_equal. apply pixels_after_step.
    + rewrite Hc', Hc. destruct d as [D]. cbn [milliseconds subtract].
      rewrite <- app_assoc. f_equal.
      change (seq 0 (S k)) with (0%nat :: seq 1 k).
      rewrite <- seq_shift. cbn [map app]. rewrite map_map. f_equal.
      * replace (D - 1000 * Z.of_nat 0) with D by lia. reflexivity.
      * apply map_ext. intros j. do 2 f_equal. lia.
Qed.

(** ** [encode] *)

Lemma string_app_assoc (a b c : string) : (a ++ b) ++ c = a ++ (b ++ c).
Proof. induction a as [|x a IH]; cbn; [reflexivity | now rewrite IH]. Qed.

Lemma added_frames_app (l1 l2 : list EncOp) :
  added_frames (l1 ++ l2) = (added_frames l1 ++ added_frames l2)%list.
Proof. apply filter_app. Qed.

Lemma added_frames_map (A : Type) (f : A -> list Paint) (l : list A) :
  added_frames (map (fun a => AddFrame (f a)) l) = map (fun a => AddFrame (f a)) l.
Proof.
  induction l as [|a l IH]; cbn; [reflexivity|].
  unfold added_frames in IH. now rewrite IH.
Qed.

Lemma added_frames_session (A : Type) (f : A -> list Paint) (l : list A) :
  added_frames (settings ++ map (fun a => AddFrame (f a)) l ++ [Finish])
  = map (fun a => AddFrame (f a)) l.
Proof.
  rewrite !added_frames_app, added_frames_map. cbn. apply app_nil_r.
Qed.

(** The loop branch: [encode] returns, having added one frame per
    iteration. *)
Lemma encode_remaining (this : This) (d : Duration) (s : Session) :
  let k := Z.to_nat (frames this) in
  exists s' : Session,
    encode this (Remaining d) s = Some (Remaining (decrement d k), s') /\
    encoder s'
    = (encoder s ++ settings ++
       map (fun j => AddFrame (pixels_after this (painted (ctx s))
                                            (milliseconds d) (S j)))
           (seq 0 k) ++ [Finish])%list /\
    console s'
    = (console s ++
       map (fun j => countdown_line
                       (fields_of (milliseconds d - 1000 * Z.of_nat j)))
           (seq 0 k))%list.
Proof.
  intros k. unfold encode.
  match goal with
  | |- context [for_frames _ this 0 d ?s0] =>
      destruct (for_frames_runs this k (S k) 0 d s0)
        as (s' & Hrun & _ & He & Hc);
      [subst k; f_equal; lia | lia |]
  end.
  fold k. rewrite Hrun.
  eexists. split; [reflexivity|]. split.
  - cbn [enc encoder ctx console]. rewrite He. cbn.
    repeat rewrite <- app_assoc. reflexivity.
  - cbn [enc encoder ctx console]. rewrite Hc. reflexivity.
Qed.

(** The date-passed branch. *)
Lemma encode_passed (this : This) (message : string) (s : Session) :
  exists s' : Session,
    encode this (Passed message) s = Some (Passed message, s') /\
    encoder s'
    = (encoder s ++ settings ++
       [AddFrame (painted (ctx s) ++ passed_paint this message); Finish])%list /\
    console s' = console s.
Proof.
  unfold encode. change 12%Q with (inject_Z 12). rewrite floor_quot.
  eexists. split; [reflexivity|]. split; [|reflexivity].
  unfold passed_paint, JS.join. cbn -[JS.toString Z.div].
  repeat rewrite <- app_assoc. rewrite string_app_assoc. reflexivity.
Qed.

(** ** Sessions *)

(** C3. In every session whose time computation returns Remaining, the
    encoder receives exactly [frames] frames (the clamped frame count)
    between its settings and [finish]; frame 0 shows the undecremented
    duration, frame [i] shows the duration less [i] seconds, and the
    duration object ends [frames] seconds lower: it is decremented by one
    second after each frame is added. *)
Theorem remaining_session
        (valueOf : Zoned -> Z) (timeString : string)
        (w h : option Z) (c b n : option string) (fr : option Z)
        (zone msg : option string) (D : Z) :
  let this := new_this w h c b n fr zone msg in
  let count := Z.to_nat (frames this) in
  Countdown.time valueOf this timeString = Remaining (duration D) ->
  exists s : Session,
    init valueOf timeString w h c b n fr zone msg
    = Some (this, Remaining (duration (D - Z.of_nat count * 1000)), s) /\
    Z.of_nat count = clamp (JS.default 30 fr) 1 90 /\
    encoder s
    = (settings ++
       map (fun i => AddFrame (pixels_after this [] D (S i))) (seq 0 count) ++
       [Finish])%list /\
    length (added_frames (encoder s)) = count /\
    nth_error (added_frames (encoder s)) 0
    = Some (AddFrame (countdown_paint this (fields_of D))) /\
    (forall i : nat,
        (i < count)%nat ->
        nth_error (added_frames (encoder s)) i
        = Some (AddFrame
                  (pixels_after this [] D i ++
                   countdown_paint this (fields_of (D - 1000 * Z.of_nat i))))) /\
    console s
    = map (fun i => countdown_line (fields_of (D - 1000 * Z.of_nat i)))
          (seq 0 count).
Proof.
  intros this count Htime. unfold init. fold this. rewrite Htime.
  destruct (encode_remaining this (duration D) new_session)
    as (s & Henc & He & Hc).
  fold count in Henc, He, Hc. cbn [milliseconds] in He, Hc.
  rewrite Henc, decrement_milliseconds. cbn [milliseconds].
  assert (Hcount : Z.of_nat count = clamp (JS.default 30 fr) 1 90).
  { subst count this. cbn [new_this frames].
    pose proof (clamp_bounds (JS.default 30 fr) 1 90). lia. }
  exists s. split; [reflexivity|]. split; [exact Hcount|].
  cbn [new_session encoder console ctx painted getContext2d app] in He, Hc.
  split; [exact He|]. rewrite He, added_frames_session.
  split; [|split; [|split; [|exact Hc]]].
  - now rewrite length_map, length_seq.
  - assert (Hpos : 1 <= Z.of_nat count).
    { rewrite Hcount. apply clamp_bounds. lia. }
    destruct count as [|count']; [lia|].
    cbn [seq map nth_error]. do 2 f_equal. apply pixels_after_one.
  - intros i Hi. rewrite nth_error_map, nth_error_seq.
    destruct (Nat.ltb_spec i count) as [_|Hge]; [|lia].
    cbn [option_map Nat.add]. do 2 f_equal. apply pixels_after_succ.
Qed.

Lemma remaining_session_witness :
  let valueOf := fun m : Zoned => match m with tz _ _ => 90061500 | tz_now _ => 0 end in
  let this := new_this None None None None None (Some 2) None None in
  Countdown.time valueOf this "2099-01-01 00:00" = Remaining (duration 90061500) /\
  exists s : Session,
    init valueOf "2099-01-01 00:00" None None None None None (Some 2) None None
    = Some (this, Remaining (duration (90061500 - Z.of_nat 2 * 1000)), s) /\
    Z.of_nat 2 = clamp (JS.default 30 (Some 2)) 1 90 /\
    encoder s
    = (settings ++
       map (fun i => AddFrame (pixels_after this [] 90061500 (S i))) (seq 0 2) ++
       [Finish])%list /\
    length (added_frames (encoder s)) = 2%nat /\
    nth_error (added_frames (encoder s)) 0
    = Some (AddFrame (countdown_paint this (fields_of 90061500))) /\
    (forall i : nat,
        (i < 2)%nat ->
        nth_error (added_frames (encoder s)) i
        = Some (AddFrame
                  (pixels_after this [] 90061500 i ++
                   countdown_paint this
                     (fields_of (90061500 - 1000 * Z.of_nat i))))) /\
    console s
    = map (fun i => countdown_line (fields_of (90061500 - 1000 * Z.of_nat i)))
          (seq 0 2).
Proof.
  split; [reflexivity|].
  apply (remaining_session
           (fun m : Zoned => match m with tz _ _ => 90061500 | tz_now _ => 0 end)
           "2099-01-01 00:00" None None None None None (Some 2) None None 90061500).
  reflexivity.
Defined.

(** C4. In every session whose time computation returns Passed, the
    encoder receives exactly one frame, the message frame, between its
    settings and [finish], whatever frame count was asked for. *)
Theorem passed_session
        (valueOf : Zoned -> Z) (timeString : string)
        (w h : option Z) (c b n : option string) (fr : option Z)
        (zone msg : option string) (message : string) :
  let this := new_this w h c b n fr zone msg in
  Countdown.time valueOf this timeString = Passed message ->
  exists s : Session,
    init valueOf timeString w h c b n fr zone msg = Some (this, Passed message, s) /\
    encoder s
    = (settings ++ [AddFrame (passed_paint this message); Finish])%list /\
    added_frames (encoder s) = [AddFrame (passed_paint this message)] /\
    passed_paint (new_this w h c b n fr zone msg) message
    = passed_paint (new_this w h c b n None zone msg) message.
Proof.
  intros this Htime. unfold init. fold this. rewrite Htime.
  destruct (encode_passed this message new_session) as (s & Henc & He & _).
  rewrite Henc. exists s. split; [reflexivity|].
  cbn [new_session encoder ctx painted getContext2d app] in He.
  rewrite He. repeat split.
Qed.

Lemma passed_session_witness :
  let valueOf := fun _ : Zoned => 0 in
  let this := new_this None None None None None (Some 25) None (Some "Gone!") in
  Countdown.time valueOf this "2000-01-01 00:00" = Passed "Gone!" /\
  exists s : Session,
    init valueOf "2000-01-01 00:00" None None None None None (Some 25) None
         (Some "Gone!")
    = Some (this, Passed "Gone!", s) /\
    encoder s
    = (settings ++ [AddFrame (passed_paint this "Gone!"); Finish])%list /\
    added_frames (encoder s) = [AddFrame (passed_paint this "Gone!")] /\
    passed_paint this "Gone!"
    = passed_paint (new_this None None None None None None None (Some "Gone!"))
                   "Gone!".
Proof.
  split; [reflexivity|].
  apply (passed_session (fun _ : Zoned => 0) "2000-01-01 00:00"
                        None None None None None (Some 25) None (Some "Gone!")
                        "Gone!").
  reflexivity.
Defined.

(** C9. A divider drawn without a y coordinate is one stroke of colour
    '#ffe600' from y = 15 to y = 130, and the strokes of a countdown frame
    are exactly the three dividers at x = 190, 315 and 440, whatever the
    text colour, the background colour and the canvas height are. *)
Theorem dividers_fixed (this : This) (d : Duration) (s : Session) (x : Z) :
  painted (ctx (drawLine x None s))
  = (painted (ctx s) ++ [Stroke "#ffe600" 2 [MoveTo x 15; LineTo x 130]])%list /\
  strokes (painted (ctx (countdown_frame this d s)))
  = (strokes (painted (ctx s)) ++
     [ Stroke "#ffe600" 2 [MoveTo 190 15; LineTo 190 130];
       Stroke "#ffe600" 2 [MoveTo 315 15; LineTo 315 130];
       Stroke "#ffe600" 2 [MoveTo 440 15; LineTo 440 130] ])%list.
Proof.
  split; [apply drawLine_paints|].
  destruct (countdown_frame_effect this d s) as (Hp & _ & _).
  cbv zeta in Hp. rewrite Hp. unfold strokes. rewrite filter_app.
  reflexivity.
Qed.

(** C10. Every session adds at least one frame to the encoder between
    [start] and [finish]: the clamped frame count is at least 1 on the
    countdown branch, and the date-passed branch adds exactly one. *)
Theorem session_never_empty
        (valueOf : Zoned -> Z) (timeString : string)
        (w h : option Z) (c b n : option string) (fr : option Z)
        (zone msg : option string) :
  exists (result : TimeResult) (s : Session) (pixels : list (list Paint)),
    init valueOf timeString w h c b n fr zone msg
    = Some (new_this w h c b n fr zone msg, result, s) /\
    encoder s = (settings ++ map AddFrame pixels ++ [Finish])%list /\
    (1 <= length pixels)%nat /\
    (1 <= length (added_frames (encoder s)))%nat /\
    1 <= frames (new_this w h c b n fr zone msg).
Proof.
  set (this := new_this w h c b n fr zone msg).
  assert (Hfr : 1 <= frames this <= 90).
  { subst this. cbn [new_this frames]. apply clamp_bounds. lia. }
  unfold init. fold this.
  destruct (Countdown.time valueOf this timeString) as [message|d].
  - destruct (encode_passed this message new_session) as (s & Henc & He & _).
    rewrite Henc. exists (Passed message), s, [passed_paint this message].
    cbn [new_session encoder ctx painted getContext2d app] in He.
    rewrite He. repeat split; first [lia | cbn; lia].
  - destruct (encode_remaining this d new_session) as (s & Henc & He & _).
    rewrite Henc.
    cbn [new_session encoder ctx painted getContext2d app] in He.
    eexists _, s,
      (map (fun j => pixels_after this [] (milliseconds d) (S j))
           (seq 0 (Z.to_nat (frames this)))).
    split; [reflexivity|]. rewrite He, map_map.
    split; [reflexivity|].
    rewrite !added_frames_app, added_frames_map.
    rewrite !length_app, !length_map, length_seq.
    repeat split; lia.
Qed.

(** * Further properties of the generator *)

(** ** [clamp] *)

(** X1. With [min <= max] the result of [clamp] lies in [min, max]; a
    number inside the range is returned unchanged, a number below it
    gives [min] and a number above it gives [max]. *)
Theorem clamp_saturates (number lo hi : Z) :
  lo <= hi ->
  lo <= clamp number lo hi <= hi /\
  (lo <= number <= hi -> clamp number lo hi = number) /\
  (number < lo -> clamp number lo hi = lo) /\
  (hi < number -> clamp number lo hi = hi).
Proof. unfold clamp, Math.max, Math.min. lia. Qed.

Lemma clamp_saturates_witness :
  150 <= 1000 /\
  150 <= clamp 1200 150 1000 <= 1000 /\
  (150 <= 1200 <= 1000 -> clamp 1200 150 1000 = 1200) /\
  (1200 < 150 -> clamp 1200 150 1000 = 150) /\
  (1000 < 1200 -> clamp 1200 150 1000 = 1000).
Proof.
  split; [lia | apply (clamp_saturates 1200 150 1000); lia].
Defined.

(** X2. When the bounds are given in the wrong order ([max < min]),
    [clamp] returns [min] for every number: the lower bound wins. *)
Theorem clamp_inverted_bounds (number lo hi : Z) :
  hi < lo -> clamp number lo hi = lo.
Proof. unfold clamp, Math.max, Math.min. lia. Qed.

Lemma clamp_inverted_bounds_witness :
  10 < 20 /\ clamp 15 20 10 = 20.
Proof.
  split; [lia | apply (clamp_inverted_bounds 15 20 10); lia].
Defined.

(** X3. [clamp] is monotone in its number. *)
Theorem clamp_monotone (n m lo hi : Z) :
  n <= m -> clamp n lo hi <= clamp m lo hi.
Proof. unfold clamp, Math.max, Math.min. lia. Qed.

Lemma clamp_monotone_witness :
  40 <= 70 /\ clamp 40 1 90 <= clamp 70 1 90.
Proof.
  split; [lia | apply (clamp_monotone 40 70 1 90); lia].
Defined.

(** X4. Clamping twice with the same bounds is clamping once, whatever
    the order of the bounds. *)
Theorem clamp_idempotent (number lo hi : Z) :
  clamp (clamp number lo hi) lo hi = clamp number lo hi.
Proof. unfold clamp, Math.max, Math.min. lia. Qed.

(** ** The fields of a duration *)

Lemma extract_seconds (D : Z) :
  let t := D / 1000 in
  extract (duration D) =
  mkFields (t / 86400)
           (t / 3600 - t / 86400 * 24)
           (t / 60 - t / 86400 * 24 * 60 - (t / 3600 - t / 86400 * 24) * 60)
           (t - t / 86400 * 24 * 60 * 60
            - (t / 3600 - t / 86400 * 24) * 60 * 60
            - (t / 60 - t / 86400 * 24 * 60
               - (t / 3600 - t / 86400 * 24) * 60) * 60).
Proof.
  cbv zeta. rewrite extract_div.
  destruct (div_units D) as (Hm & Hh & Hd). rewrite Hm, Hh, Hd. reflexivity.
Qed.

Lemma extract_total (D : Z) :
  let f := extract (duration D) in
  days f * 86400 + hours f * 3600 + minutes f * 60 + seconds f = D / 1000.
Proof.
  cbv zeta. rewrite extract_seconds. cbv zeta. cbn [days hours minutes seconds].
  lia.
Qed.

Lemma extract_lower_ranges (D : Z) :
  let f := extract (duration D) in
  0 <= hours f <= 23 /\ 0 <= minutes f <= 59 /\ 0 <= seconds f <= 59.
Proof.
  cbv zeta. rewrite extract_seconds. cbv zeta. cbn [days hours minutes seconds].
  generalize (D / 1000). intros t.
  repeat split; Z.div_mod_to_equations; lia.
Qed.

Lemma extract_days_sign (D : Z) :
  days (extract (duration D)) = D / 86400000 /\
  (days (extract (duration D)) < 0 <-> D < 0).
Proof.
  rewrite extract_div. cbn [days]. split; [reflexivity|].
  Z.div_mod_to_equations; lia.
Qed.

(** X5. For every integer duration, negative ones included, the fields
    add up to the whole seconds (rounded down) and hours, minutes and
    seconds stay in [0,23], [0,59] and [0,59]; only the days carry the
    sign: they are negative exactly when the duration is. *)
Theorem extract_any_sign (D : Z) :
  let f := extract (duration D) in
  days f * 86400 + hours f * 3600 + minutes f * 60 + seconds f = D / 1000 /\
  0 <= hours f <= 23 /\ 0 <= minutes f <= 59 /\ 0 <= seconds f <= 59 /\
  (days f < 0 <-> D < 0).
Proof.
  cbv zeta.
  pose proof (extract_total D) as Ht.
  pose proof (extract_lower_ranges D) as (Hh & Hm & Hs).
  pose proof (extract_days_sign D) as (_ & Hd).
  cbv zeta in Ht, Hh, Hm, Hs. auto.
Qed.

(** X6. The milliseconds below a whole second never change what is
    shown: durations with the same number of whole seconds have the same
    fields. *)
Theorem extract_ignores_milliseconds (D D' : Z) :
  D / 1000 = D' / 1000 ->
  extract (duration D) = extract (duration D').
Proof.
  intros H. rewrite (extract_seconds D), (extract_seconds D'). cbv zeta.
  now rewrite H.
Qed.

Lemma extract_ignores_milliseconds_witness :
  90061500 / 1000 = 90061999 / 1000 /\
  extract (duration 90061500) = extract (duration 90061999).
Proof.
  split; [reflexivity | apply (extract_ignores_milliseconds 90061500 90061999)].
  reflexivity.
Defined.

(** X7. Decomposition inverts composition: a duration put together from
    [d] days, [h < 24] hours, [m < 60] minutes, [s < 60] seconds and
    [ms < 1000] milliseconds is taken apart into exactly [d], [h], [m]
    and [s], at every unit boundary and for negative [d] as well. *)
Theorem extract_compose (d h m s ms : Z) :
  0 <= h < 24 -> 0 <= m < 60 -> 0 <= s < 60 -> 0 <= ms < 1000 ->
  extract (duration ((((d * 24 + h) * 60 + m) * 60 + s) * 1000 + ms))
  = mkFields d h m s.
Proof.
  intros Hh Hm Hs Hms. rewrite extract_seconds. cbv zeta.
  replace (((((d * 24 + h) * 60 + m) * 60 + s) * 1000 + ms) / 1000)
    with (((d * 24 + h) * 60 + m) * 60 + s)
    by (Z.div_mod_to_equations; lia).
  assert (H1 : (((d * 24 + h) * 60 + m) * 60 + s) / 60 = (d * 24 + h) * 60 + m)
    by (Z.div_mod_to_equations; lia).
  assert (H2 : (((d * 24 + h) * 60 + m) * 60 + s) / 3600 = d * 24 + h)
    by (Z.div_mod_to_equations; lia).
  assert (H3 : (((d * 24 + h) * 60 + m) * 60 + s) / 86400 = d)
    by (Z.div_mod_to_equations; lia).
  rewrite H1, H2, H3. f_equal; lia.
Qed.

Lemma extract_compose_witness :
  0 <= 0 < 24 /\ 0 <= 0 < 60 /\ 0 <= 0 < 60 /\ 0 <= 0 < 1000 /\
  extract (duration ((((1 * 24 + 0) * 60 + 0) * 60 + 0) * 1000 + 0))
  = mkFields 1 0 0 0.
Proof.
  repeat (split; [lia|]).
  apply (extract_compose 1 0 0 0 0); lia.
Defined.

(** ** The drawn fields *)

Lemma toString_negative (v : Z) :
  v < 0 ->
  exists rest : string,
    JS.toString v = String "-" rest /\ (1 <= String.length rest)%nat.
Proof.
  intros Hv. destruct v as [|p|p]; try lia.
  unfold JS.toString. cbn. eexists. split; [reflexivity|].
  rewrite string_of_uint_length.
  pose proof (Unsigned.to_uint_nonnil p).
  destruct (Pos.to_uint p); cbn; (congruence || lia).
Qed.

Lemma toString_read_back (v : Z) : read_back (JS.toString v) = Some v.
Proof.
  unfold read_back, JS.toString. rewrite NilEmpty.isi. cbn [option_map].
  now rewrite DecimalZ.of_to.
Qed.

Lemma one_char_small (v : Z) :
  String.length (JS.toString v) = 1%nat -> 0 <= v < 10.
Proof.
  intros Hlen.
  destruct (Z_lt_le_dec v 0) as [Hneg|Hpos].
  - destruct (toString_negative v Hneg) as (rest & E & Hrest).
    rewrite E in Hlen. cbn in Hlen. lia.
  - destruct (Z_lt_le_dec v 10) as [Hsmall|Hbig]; [lia|].
    pose proof (toString_more_digits v Hbig). lia.
Qed.

Lemma twoChars_read (u : Z) : read_back (twoChars u) = Some u.
Proof.
  unfold twoChars.
  destruct (Nat.eqb_spec (String.length (JS.toString u)) 1) as [Hone|_].
  - apply one_char_small in Hone.
    assert (u = 0 \/ u = 1 \/ u = 2 \/ u = 3 \/ u = 4 \/
            u = 5 \/ u = 6 \/ u = 7 \/ u = 8 \/ u = 9) as Hcases by lia.
    repeat (destruct Hcases as [-> | Hcases]; [reflexivity|]).
    subst u. reflexivity.
  - apply toString_read_back.
Qed.

Lemma twoChars_inj (v v' : Z) : twoChars v = twoChars v' -> v = v'.
Proof.
  intros Heq. pose proof (twoChars_read v) as Hv.
  rewrite Heq, twoChars_read in Hv. now injection Hv.
Qed.

(** X8. The padding loses nothing: reading a drawn field back as a
    decimal number gives the value it was drawn from, so two different
    values are never drawn the same. *)
Theorem twoChars_read_back (v : Z) :
  read_back (twoChars v) = Some v /\
  (forall v' : Z, twoChars v = twoChars v' -> v = v').
Proof.
  split; [apply twoChars_read | intros v'; apply twoChars_inj].
Qed.

Lemma below_hundred_checked :
  forallb (fun n => (String.length (twoChars (Z.of_nat n)) =? 2)%nat)
          (seq 0 100) = true.
Proof. vm_compute. reflexivity. Qed.

Lemma twoChars_below_hundred (v : Z) :
  0 <= v < 100 -> String.length (twoChars v) = 2%nat.
Proof.
  intros Hv. pose proof below_hundred_checked as Hall.
  rewrite forallb_forall in Hall.
  specialize (Hall (Z.to_nat v)). rewrite Z2Nat.id in Hall by lia.
  apply Nat.eqb_eq, Hall, in_seq. lia.
Qed.

(** X9. Whatever the duration, the hours, minutes and seconds are drawn
    with exactly two characters each; only the days can be wider. *)
Theorem lower_fields_two_wide (D : Z) :
  String.length (hours (fields_of D)) = 2%nat /\
  String.length (minutes (fields_of D)) = 2%nat /\
  String.length (seconds (fields_of D)) = 2%nat /\
  (2 <= String.length (days (fields_of D)))%nat.
Proof.
  destruct (extract_lower_ranges D) as (Hh & Hm & Hs). cbv zeta in Hh, Hm, Hs.
  unfold fields_of, pad. cbn [days hours minutes seconds].
  repeat split; try (apply twoChars_below_hundred; lia).
  unfold twoChars.
  pose proof (toString_nonempty (days (extract (duration D)))).
  destruct (Nat.eqb_spec
              (String.length (JS.toString (days (extract (duration D))))) 1)
    as [E|E]; [cbn [append String.length]; rewrite E|]; lia.
Qed.

(** X10. A negative duration is drawn with a minus sign in front of the
    days (and no zero padding): the loop has no guard for a countdown
    that runs past zero. *)
Theorem negative_days_signed (D : Z) :
  D < 0 ->
  exists rest : string,
    days (fields_of D) = String "-" rest /\ (1 <= String.length rest)%nat /\
    read_back (days (fields_of D)) = Some (D / 86400000) /\
    D / 86400000 < 0.
Proof.
  intros HD.
  destruct (extract_days_sign D) as (Hdays & Hsign).
  assert (Hneg : days (extract (duration D)) < 0) by (apply Hsign; exact HD).
  destruct (toString_negative _ Hneg) as (rest & E & Hrest).
  exists rest. unfold fields_of, pad. cbn [days].
  split; [|split; [exact Hrest|split]].
  - unfold twoChars. rewrite E. cbn [String.length].
    destruct rest as [|ch rest']; [cbn in Hrest; lia | reflexivity].
  - rewrite <- Hdays. apply twoChars_read.
  - now rewrite <- Hdays.
Qed.

Lemma negative_days_signed_witness :
  -500 < 0 /\
  exists rest : string,
    days (fields_of (-500)) = String "-" rest /\ (1 <= String.length rest)%nat /\
    read_back (days (fields_of (-500))) = Some (-500 / 86400000) /\
    -500 / 86400000 < 0.
Proof.
  split; [lia | apply (negative_days_signed (-500)); lia].
Defined.

(** X11. No two frames of one countdown show the same fields: the
    durations of frames [i] and [j] differ by whole seconds, and so do
    the drawn days, hours, minutes or seconds. *)
Theorem frames_show_distinct_fields (D : Z) (i j : nat) :
  i <> j ->
  fields_of (D - 1000 * Z.of_nat i) <> fields_of (D - 1000 * Z.of_nat j).
Proof.
  intros Hij Heq.
  pose proof (extract_total (D - 1000 * Z.of_nat i)) as Hi.
  pose proof (extract_total (D - 1000 * Z.of_nat j)) as Hj.
  cbv zeta in Hi, Hj. unfold fields_of, pad in Heq.
  remember (extract (duration (D - 1000 * Z.of_nat i))) as fi.
  remember (extract (duration (D - 1000 * Z.of_nat j))) as fj.
  assert (Hd : twoChars (days fi) = twoChars (days fj)) by congruence.
  assert (Hh : twoChars (hours fi) = twoChars (hours fj)) by congruence.
  assert (Hm : twoChars (minutes fi) = twoChars (minutes fj)) by congruence.
  assert (Hs : twoChars (seconds fi) = twoChars (seconds fj)) by congruence.
  apply twoChars_inj in Hd, Hh, Hm, Hs.
  rewrite Hd, Hh, Hm, Hs, Hj in Hi. clear - Hij Hi.
  assert (Z.of_nat i = Z.of_nat j) by (Z.div_mod_to_equations; lia).
  lia.
Qed.

Lemma frames_show_distinct_fields_witness :
  0%nat <> 1%nat /\
  fields_of (90061500 - 1000 * Z.of_nat 0)
  <> fields_of (90061500 - 1000 * Z.of_nat 1).
Proof.
  split; [discriminate | apply (frames_show_distinct_fields 90061500 0 1)].
  discriminate.
Defined.

(** ** [time] *)

(** X12. The message of a Passed result is never the empty string,
    whatever message the object holds. *)
Theorem time_message_never_empty
        (valueOf : Zoned -> Z) (this : This) (timeString message : string) :
  Countdown.time valueOf this timeString = Passed message ->
  message <> "".
Proof.
  rewrite time_cases. cbv zeta.
  destruct (_ <=? 0); [|discriminate].
  intros H. injection H as <-. unfold JS.or_else.
  destruct (String.eqb_spec (datepassedtext this) "") as [E|N];
    [discriminate | exact N].
Qed.

Lemma time_message_never_empty_witness :
  let this := new_this None None None None None None None (Some "") in
  Countdown.time (fun _ => 0) this "2000-01-01 00:00" = Passed "Date has passed!" /\
  "Date has passed!" <> "".
Proof.
  split; [reflexivity|].
  apply (time_message_never_empty
           (fun _ => 0)
           (new_this None None None None None None None (Some ""))
           "2000-01-01 00:00" "Date has passed!").
  reflexivity.
Defined.



(** X14. [time] reads only the timezone and the passed-message of the
    object: two objects that agree on these give the same result, whatever
    their sizes, colours, names and frame counts. *)
Theorem time_reads_zone_and_message
        (valueOf : Zoned -> Z) (this this' : This) (timeString : string) :
  timezone this = timezone this' ->
  datepassedtext this = datepassedtext this' ->
  Countdown.time valueOf this timeString = Countdown.time valueOf this' timeString.
Proof.
  intros Hz Hm. rewrite !time_cases. cbv zeta.
  unfold time_moments. rewrite Hz, Hm. reflexivity.
Qed.

Lemma time_reads_zone_and_message_witness :
  let this := new_this (Some 200) None None None None (Some 5) (Some "ru") None in
  let this' := new_this None (Some 300) (Some "fff") None (Some "x") None
                        (Some "ru") None in
  timezone this = timezone this' /\
  datepassedtext this = datepassedtext this' /\
  Countdown.time (fun _ => 0) this "2000-01-01 00:00"
  = Countdown.time (fun _ => 0) this' "2000-01-01 00:00".
Proof.
  split; [reflexivity | split; [reflexivity|]].
  apply (time_reads_zone_and_message
           (fun _ => 0)
           (new_this (Some 200) None None None None (Some 5) (Some "ru") None)
           (new_this None (Some 300) (Some "fff") None (Some "x") None
                     (Some "ru") None)
           "2000-01-01 00:00"); reflexivity.
Defined.

(** ** [drawLine] *)

(** X15. The y parameter of [drawLine] cannot draw a line: a supplied
    non-zero y is used for both end points, which gives a stroke of
    length zero at (x, y); a supplied 0 is falsy and gives the default
    divider from 15 to 130. *)
Theorem drawLine_supplied_y (x y : Z) (s : Session) :
  y <> 0 ->
  painted (ctx (drawLine x (Some y) s))
  = (painted (ctx s) ++ [Stroke "#ffe600" 2 [MoveTo x y; LineTo x y]])%list /\
  drawLine x (Some 0) s = drawLine x None s.
Proof.
  intros Hy. split; [|reflexivity].
  unfold drawLine, JS.num_or_else.
  destruct (Z.eqb_spec y 0) as [E|_]; [contradiction | reflexivity].
Qed.

Lemma drawLine_supplied_y_witness :
  40 <> 0 /\
  painted (ctx (drawLine 190 (Some 40) new_session))
  = (painted (ctx new_session) ++
     [Stroke "#ffe600" 2 [MoveTo 190 40; LineTo 190 40]])%list /\
  drawLine 190 (Some 0) new_session = drawLine 190 None new_session.
Proof.
  split; [discriminate | apply (drawLine_supplied_y 190 40 new_session)].
  discriminate.
Defined.

(** ** Frames and sessions *)







(** X19. [encode] called on an object whose frame count is zero or
    negative (which [init] never produces) runs the loop body not at all:
    the encoder is started, configured and finished without any frame, and
    the duration is left as it was. *)
Theorem encode_without_frames (this : This) (d : Duration) (s : Session) :
  frames this <= 0 ->
  exists s' : Session,
    encode this (Remaining d) s = Some (Remaining d, s') /\
    encoder s' = (encoder s ++ settings ++ [Finish])%list /\
    added_frames (encoder s') = added_frames (encoder s) /\
    console s' = console s.
Proof.
  intros Hfr.
  destruct (encode_remaining this d s) as (s' & Henc & He & Hc).
  cbv zeta in Henc, He, Hc.
  replace (Z.to_nat (frames this)) with 0%nat in Henc, He, Hc by lia.
  cbn [seq map app decrement Nat.iter] in Henc, He, Hc.
  exists s'. split; [exact Henc|]. split; [exact He|]. split.
  - rewrite He, added_frames_app. cbn. apply app_nil_r.
  - rewrite Hc. apply app_nil_r.
Qed.

Lemma encode_without_frames_witness :
  let this := mkThis 640 150 0 "#000000" "#ffe600" "default" "uk"
                     "Date has passed!" 320 75 in
  frames this <= 0 /\
  exists s' : Session,
    encode this (Remaining (duration 5000)) new_session
    = Some (Remaining (duration 5000), s') /\
    encoder s' = (encoder new_session ++ settings ++ [Finish])%list /\
    added_frames (encoder s') = added_frames (encoder new_session) /\
    console s' = console new_session.
Proof.
  split; [cbn; lia|].
  apply (encode_without_frames
           (mkThis 640 150 0 "#000000" "#ffe600" "default" "uk"
                   "Date has passed!" 320 75)
           (duration 5000) new_session).
  cbn; lia.
Defined.

Lemma previous_second (D : Z) : (D - 1000) / 1000 = D / 1000 - 1.
Proof. Z.div_mod_to_equations; lia. Qed.

(** X20. One [subtract(1, 'seconds')] is one tick of the display: while
    the seconds shown are above zero the next frame shows the same days,
    hours and minutes and one second less; from zero the seconds wrap to
    59; in both cases the fields stand for exactly one second less. *)
Theorem countdown_tick (d : Duration) :
  let f := extract d in
  let f' := extract (subtract d 1) in
  (0 < seconds f ->
   f' = mkFields (days f) (hours f) (minutes f) (seconds f - 1)) /\
  (seconds f = 0 -> seconds f' = 59) /\
  days f' * 86400 + hours f' * 3600 + minutes f' * 60 + seconds f'
  = days f * 86400 + hours f * 3600 + minutes f * 60 + seconds f - 1.
Proof.
  destruct d as [D]. unfold subtract. cbn [milliseconds].
  replace (D - 1 * 1000) with (D - 1000) by lia. cbv zeta.
  pose proof (extract_total D) as Ht.
  pose proof (extract_total (D - 1000)) as Ht'.
  cbv zeta in Ht, Ht'. rewrite previous_second in Ht'.
  split; [|split; [|lia]].
  - rewrite (extract_seconds D), (extract_seconds (D - 1000)). cbv zeta.
    rewrite previous_second. cbn [days hours minutes seconds].
    generalize (D / 1000). intros t Hs.
    f_equal; Z.div_mod_to_equations; lia.
  - rewrite (extract_seconds D), (extract_seconds (D - 1000)). cbv zeta.
    rewrite previous_second. cbn [days hours minutes seconds].
    generalize (D / 1000). intros t Hs.
    Z.div_mod_to_equations; lia.
Qed.

(** X21. The loop does not stop at zero and never switches to the
    date-passed message: in a countdown session, a frame whose duration
    has run below zero is still added, and its console line shows the
    fields of the negative duration, the days with a minus sign. *)
Theorem countdown_runs_below_zero
        (valueOf : Zoned -> Z) (timeString : string)
        (w h : option Z) (c b n : option string) (fr : option Z)
        (zone msg : option string) (D : Z) (i : nat) :
  let this := new_this w h c b n fr zone msg in
  Countdown.time valueOf this timeString = Remaining (duration D) ->
  (i < Z.to_nat (frames this))%nat ->
  D < 1000 * Z.of_nat i ->
  exists (s : Session) (result : TimeResult) (rest : string),
    init valueOf timeString w h c b n fr zone msg = Some (this, result, s) /\
    nth_error (console s) i
    = Some (countdown_line (fields_of (D - 1000 * Z.of_nat i))) /\
    nth_error (added_frames (encoder s)) i
    = Some (AddFrame (pixels_after this [] D (S i))) /\
    days (fields_of (D - 1000 * Z.of_nat i)) = String "-" rest.
Proof.
  intros this Htime Hi Hneg. unfold init. fold this. rewrite Htime.
  destruct (encode_remaining this (duration D) new_session)
    as (s & Henc & He & Hc).
  cbv zeta in Henc, He, Hc. cbn [milliseconds] in He, Hc.
  cbn [new_session encoder console ctx painted getContext2d app] in He, Hc.
  rewrite Henc.
  destruct (extract_days_sign (D - 1000 * Z.of_nat i)) as (_ & Hsign).
  assert (Hd : days (extract (duration (D - 1000 * Z.of_nat i))) < 0)
    by (apply Hsign; lia).
  destruct (toString_negative _ Hd) as (rest & E & Hrest).
  exists s. eexists. exists rest. split; [reflexivity|].
  split; [|split].
  - rewrite Hc, nth_error_map, nth_error_seq.
    destruct (Nat.ltb_spec i (Z.to_nat (frames this))); [reflexivity | lia].
  - rewrite He, added_frames_session, nth_error_map, nth_error_seq.
    destruct (Nat.ltb_spec i (Z.to_nat (frames this))); [reflexivity | lia].
  - unfold fields_of, pad. cbn [days]. unfold twoChars. rewrite E.
    cbn [String.length].
    destruct rest as [|ch rest']; [cbn in Hrest; lia | reflexivity].
Qed.

Lemma countdown_runs_below_zero_witness :
  let valueOf := fun m : Zoned => match m with tz _ _ => 500 | tz_now _ => 0 end in
  let this := new_this None None None None None (Some 2) None None in
  Countdown.time valueOf this "2099-01-01 00:00" = Remaining (duration 500) /\
  (1 < Z.to_nat (frames this))%nat /\
  500 < 1000 * Z.of_nat 1 /\
  exists (s : Session) (result : TimeResult) (rest : string),
    init valueOf "2099-01-01 00:00" None None None None None (Some 2) None None
    = Some (this, result, s) /\
    nth_error (console s) 1
    = Some (countdown_line (fields_of (500 - 1000 * Z.of_nat 1))) /\
    nth_error (added_frames (encoder s)) 1
    = Some (AddFrame (pixels_after this [] 500 (S 1))) /\
    days (fields_of (500 - 1000 * Z.of_nat 1)) = String "-" rest.
Proof.
  split; [reflexivity|]. split; [cbn; lia|]. split; [lia|].
  apply (countdown_runs_below_zero
           (fun m : Zoned => match m with tz _ _ => 500 | tz_now _ => 0 end)
           "2099-01-01 00:00" None None None None None (Some 2) None None 500 1).
  - reflexivity.
  - cbn; lia.
  - lia.
Defined.

(** ** The output file *)

Lemma string_length_app (a b : string) :
  String.length (a ++ b) = (String.length a + String.length b)%nat.
Proof. induction a as [|x a IH]; cbn; [reflexivity | now rewrite IH]. Qed.

Lemma string_app_inv_head (a x y : string) : a ++ x = a ++ y -> x = y.
Proof.
  induction a as [|ch a IH]; cbn; intros H; [exact H|].
  injection H as H. now apply IH.
Qed.

Lemma string_app_inv_tail (t : string) :
  forall x y : string, x ++ t = y ++ t -> x = y.
Proof.
  induction x as [|ch x IH]; intros [|ch' y] H.
  - reflexivity.
  - apply (f_equal String.length) in H. cbn in H.
    rewrite string_length_app in H. lia.
  - apply (f_equal String.length) in H. cbn in H.
    rewrite string_length_app in H. lia.
  - cbn in H. injection H as -> H. f_equal. now apply IH.
Qed.

(** X22. In one working directory the output file is determined by the
    name and determines it: two objects write to the same path exactly
    when their names are equal. *)
Theorem filePath_injective (cwd : string) (this this' : This) :
  filePath cwd this = filePath cwd this' <-> name this = name this'.
Proof.
  unfold filePath. split.
  - intros H. apply string_app_inv_tail in H.
    now apply string_app_inv_head in H.
  - intros ->. reflexivity.
Qed.
